(** * Type signatures of the TL schema parser (grammers-tl-parser, tl/ty.rs)

    Shallow embedding of [Type::from_str], which parses a single schema
    type such as [!X], [vector<int>] or [storage.FileType].

    A Rust [&str] is a sequence of UTF-8 bytes; it is modelled here as a
    Rocq [string], i.e. a list of 8-bit [ascii] bytes.  Every delimiter
    the parser looks at ([!], [<], [>], [.]) is a single ASCII byte, and
    such a byte never occurs inside a multi-byte UTF-8 sequence, so
    [find], [split], [starts_with], [ends_with] and the byte slices
    [&ty[a..b]] coincide on bytes and on characters.  Likewise the first
    character of a string is an ASCII lowercase letter exactly when its
    first byte is one. *)

From Stdlib Require Import Strings.String Strings.Ascii List Arith Lia Bool ZArith.
From Equations Require Import Equations.
Import ListNotations.
Set Warnings "-register-all".
Open Scope string_scope.

(** ** Data model *)

(** [crate::errors::ParamParseError] (the variants [from_str] raises). *)
Inductive ParamParseError : Set :=
| Empty
| BadGeneric.

(** [Result<T, E>]. *)
Inductive Result (T E : Type) : Type :=
| Ok (t : T)
| Err (e : E).
Arguments Ok {T E} t.
Arguments Err {T E} e.

(** [pub struct Type] ([Type] is a keyword of Rocq, hence [Type_]). *)
Inductive Type_ : Set := mkType {
  namespace : list string;
  name : string;
  bare : bool;
  generic_ref : bool;
  generic_arg : option Type_
}.

(** ** String primitives of Rust's [str] *)

Definition bang : ascii := "!".
Definition lt_char : ascii := "<".
Definition gt_char : ascii := ">".
Definition dot : ascii := ".".

(** [s.starts_with(c)]. *)
Definition starts_with (c : ascii) (s : string) : bool :=
  match s with
  | EmptyString => false
  | String x _ => Ascii.eqb x c
  end.

(** [s.ends_with(c)]. *)
Fixpoint ends_with (c : ascii) (s : string) : bool :=
  match s with
  | EmptyString => false
  | String x EmptyString => Ascii.eqb x c
  | String _ rest => ends_with c rest
  end.

(** [s.find(c)]: the (byte) index of the first occurrence of [c]. *)
Fixpoint find (c : ascii) (s : string) : option nat :=
  match s with
  | EmptyString => None
  | String x rest =>
      if Ascii.eqb x c then Some 0
      else option_map S (find c rest)
  end.

(** [&s[a..b]]: the bytes from index [a] (inclusive) to [b] (exclusive). *)
Definition slice (a b : nat) (s : string) : string :=
  substring a (b - a) s.

(** [&s[a..]]. *)
Definition slice_from (a : nat) (s : string) : string :=
  slice a (String.length s) s.

(** [s.split(c).map(|part| part.to_string()).collect()]: Rust's [split]
    always yields at least one part; [""] splits into [[""]] and a
    leading or trailing separator yields an empty first or last part. *)
Fixpoint split (c : ascii) (s : string) : list string :=
  match s with
  | EmptyString => [EmptyString]
  | String x rest =>
      if Ascii.eqb x c then EmptyString :: split c rest
      else match split c rest with
           | part :: parts => String x part :: parts
           | [] => [String x EmptyString]
           end
  end.

(** [str::is_empty]. *)
Definition is_empty (s : string) : bool :=
  match s with
  | EmptyString => true
  | String _ _ => false
  end.

(** [char::is_ascii_lowercase]: ['a'..='z']. *)
Definition is_ascii_lowercase (c : ascii) : bool :=
  (97 <=? nat_of_ascii c)%nat && (nat_of_ascii c <=? 122)%nat.

(** [s.chars().next()]. *)
Definition first_char (s : string) : option ascii :=
  match s with
  | EmptyString => None
  | String c _ => Some c
  end.

(** ** Lemmas about the primitives needed by the termination argument *)

Lemma substring_length_le : forall s n m,
  String.length (substring n m s) <= m.
Proof.
  induction s as [|c s IH]; intros [|n] [|m]; simpl; auto with arith.
Qed.

Lemma find_some_lt : forall c s pos,
  find c s = Some pos -> pos < String.length s.
Proof.
  induction s as [|x s IH]; intros pos H; simpl in *; [discriminate|].
  destruct (Ascii.eqb x c).
  - injection H as <-. lia.
  - destruct (find c s) as [p|] eqn:E; simpl in H; [|discriminate].
    injection H as <-. specialize (IH p eq_refl). lia.
Qed.

(** ** The parser *)

(** [let (ty, generic_ref) = if ty.starts_with('!') { (&ty[1..], true) }
    else { (ty, false) };] *)
Definition strip_bang (ty : string) : string * bool :=
  if starts_with bang ty then (slice_from 1 ty, true) else (ty, false).

Lemma strip_bang_length_le : forall ty,
  String.length (fst (strip_bang ty)) <= String.length ty.
Proof.
  intros [|c s]; unfold strip_bang; simpl; [lia|].
  destruct (Ascii.eqb c bang); simpl; [|lia].
  unfold slice_from, slice. simpl.
  pose proof (substring_length_le s 0 (String.length s - 0)). lia.
Qed.

(** The tail of [from_str] from [// Parse `ns1.ns2.name`] on: it splits
    the head on ['.'], rejects empty parts, pops the last part as the
    name and decides bareness from the name's first character. *)
Definition parse_path (ty : string) (generic_ref : bool)
    (generic_arg : option Type_) : Result Type_ ParamParseError :=
  let namespace := split dot ty in
  if existsb is_empty namespace then Err Empty
  else
    (* [namespace.pop().unwrap()]: [split] yields at least one part, so
       [pop] returns [Some] (see [split_not_nil]). *)
    let name := last namespace EmptyString in
    let namespace := removelast namespace in
    (* [name.chars().next().unwrap()]: [name] is non-empty here. *)
    let bare := match first_char name with
                | Some c => is_ascii_lowercase c
                | None => false
                end in
    Ok (mkType namespace name bare generic_ref generic_arg).

(** The argument body of the recursive call is shorter than the input. *)
Lemma generic_body_shorter : forall ty0 ty generic_ref pos,
  strip_bang ty0 = (ty, generic_ref) ->
  find lt_char ty = Some pos ->
  String.length (slice (S pos) (String.length ty - 1) ty) < String.length ty0.
Proof.
  intros ty0 ty gr pos Hbang Hpos.
  pose proof (strip_bang_length_le ty0) as Hle. rewrite Hbang in Hle. simpl in Hle.
  pose proof (find_some_lt _ _ _ Hpos) as Hlt.
  unfold slice.
  pose proof (substring_length_le ty (S pos) (String.length ty - 1 - S pos)).
  lia.
Qed.

(** Pairs a value with the equation that names it, so that the
    termination obligation of [from_str] sees how [ty] and [pos] arise. *)
Definition inspect {A : Type} (x : A) : { y : A | x = y } :=
  exist _ x eq_refl.

(** [impl FromStr for Type { fn from_str(ty: &str) ... }].  The only
    recursive call is on the generic argument [&ty[pos + 1..ty.len() - 1]],
    and [?] propagates its error unchanged. *)
Equations? from_str (ty0 : string) : Result Type_ ParamParseError
  by wf (String.length ty0) lt :=
  from_str ty0 with inspect (strip_bang ty0) => {
  | exist _ (ty, generic_ref) Hbang with inspect (find lt_char ty) => {
    | exist _ (Some pos) Hpos =>
        if negb (ends_with gt_char ty) then Err BadGeneric
        else match from_str (slice (S pos) (String.length ty - 1) ty) with
             | Err e => Err e
             | Ok g => parse_path (slice 0 pos ty) generic_ref (Some g)
             end;
    | exist _ None Hpos => parse_path ty generic_ref None } }.
Proof.
  exact (generic_body_shorter _ _ _ _ Hbang Hpos).
Qed.

Example from_str_foo :
  from_str "foo" = Ok (mkType [] "foo" true false None).
Proof. reflexivity. Qed.

Example from_str_nested :
  from_str "!foo.Bar<bar<baz>>" =
  Ok (mkType ["foo"] "Bar" false true
        (Some (mkType [] "bar" true false (Some (mkType [] "baz" true false None))))).
Proof. reflexivity. Qed.

(** The defining equation of [from_str], written as the Rust body reads. *)
Lemma from_str_eq : forall ty0,
  from_str ty0 =
  let (ty, generic_ref) := strip_bang ty0 in
  match find lt_char ty with
  | Some pos =>
      if negb (ends_with gt_char ty) then Err BadGeneric
      else match from_str (slice (S pos) (String.length ty - 1) ty) with
           | Err e => Err e
           | Ok g => parse_path (slice 0 pos ty) generic_ref (Some g)
           end
  | None => parse_path ty generic_ref None
  end.
Proof.
  intros ty0. funelim (from_str ty0); rewrite Hbang, Hpos; reflexivity.
Qed.

(** ** Facts about the string primitives *)

Lemma find_none_iff : forall c s,
  find c s = None <-> ~ In c (list_ascii_of_string s).
Proof.
  intros c s; induction s as [|x s IH]; simpl; [tauto|].
  destruct (Ascii.eqb x c) eqn:E.
  - apply Ascii.eqb_eq in E. subst. split; [discriminate | tauto].
  - apply Ascii.eqb_neq in E.
    destruct (find c s); simpl; split; intros H.
    + discriminate.
    + exfalso. apply H. right.
      destruct (in_dec ascii_dec c (list_ascii_of_string s)) as [Hin|Hnin];
        [exact Hin | discriminate (proj2 IH Hnin)].
    + intros [<-|Hin]; [congruence | exact (proj1 IH eq_refl Hin)].
    + reflexivity.
Qed.

Lemma split_no_sep : forall c s,
  ~ In c (list_ascii_of_string s) -> split c s = [s].
Proof.
  intros c s; induction s as [|x s IH]; intros H; simpl in *; [reflexivity|].
  destruct (Ascii.eqb x c) eqn:E.
  - apply Ascii.eqb_eq in E. subst. tauto.
  - rewrite IH by tauto. reflexivity.
Qed.

Lemma split_not_nil : forall c s, split c s <> [].
Proof.
  intros c s; induction s as [|x s IH]; simpl; [discriminate|].
  destruct (Ascii.eqb x c); [discriminate|].
  destruct (split c s); discriminate.
Qed.

Lemma is_empty_true_iff : forall s, is_empty s = true <-> s = EmptyString.
Proof. intros [|c s]; simpl; split; congruence. Qed.

Lemma ends_with_true_iff : forall c s,
  ends_with c s = true <-> exists p, s = p ++ String c EmptyString.
Proof.
  intros c s; induction s as [|x s IH].
  - simpl. split; [discriminate|]. intros [[|y p] Hp]; discriminate.
  - split.
    + intros H. destruct s as [|y s].
      * simpl in H. apply Ascii.eqb_eq in H. subst. exists EmptyString. reflexivity.
      * change (ends_with c (String y s) = true) in H.
        apply IH in H. destruct H as [p Hp]. exists (String x p). rewrite Hp. reflexivity.
    + intros [[|y p] Hp].
      * simpl in Hp. injection Hp as -> ->. simpl. apply Ascii.eqb_refl.
      * simpl in Hp. injection Hp as -> ->.
        destruct p as [|z p]; [simpl; apply Ascii.eqb_refl|].
        change (ends_with c (String z p ++ String c EmptyString) = true).
        apply IH. eauto.
Qed.

Lemma strip_bang_no_bang : forall s,
  starts_with bang s = false -> strip_bang s = (s, false).
Proof. intros s H. unfold strip_bang. rewrite H. reflexivity. Qed.

(** ** Facts about [parse_path] *)

Lemma parse_path_Err_Empty_iff : forall ty gr ga,
  parse_path ty gr ga = Err Empty <-> In EmptyString (split dot ty).
Proof.
  intros ty gr ga. unfold parse_path.
  destruct (existsb is_empty (split dot ty)) eqn:E.
  - split; [intros _ | reflexivity].
    apply existsb_exists in E. destruct E as [x [Hin Hx]].
    apply is_empty_true_iff in Hx. subst. exact Hin.
  - split; [discriminate|]. intros Hin.
    assert (existsb is_empty (split dot ty) = true) as E'
      by (apply existsb_exists; exists EmptyString; auto).
    congruence.
Qed.

Lemma parse_path_not_BadGeneric : forall ty gr ga,
  parse_path ty gr ga <> Err BadGeneric.
Proof.
  intros ty gr ga. unfold parse_path.
  destruct (existsb is_empty (split dot ty)); discriminate.
Qed.

(** ** Generic application [h<b>] *)

Lemma substring_0_full : forall s, substring 0 (String.length s) s = s.
Proof. induction s as [|c s IH]; simpl; [reflexivity | rewrite IH; reflexivity]. Qed.

Lemma substring_app_skip : forall a c n m,
  substring (String.length a + n) m (a ++ c) = substring n m c.
Proof. induction a as [|x a IH]; intros c n m; simpl; [reflexivity | apply IH]. Qed.

Lemma substring_app_prefix : forall a c,
  substring 0 (String.length a) (a ++ c) = a.
Proof. induction a as [|x a IH]; intros c; simpl; [destruct c; reflexivity | rewrite IH; reflexivity]. Qed.

Lemma string_app_assoc : forall a b c, a ++ (b ++ c) = (a ++ b) ++ c.
Proof. induction a as [|x a IH]; intros b c; simpl; [reflexivity | rewrite IH; reflexivity]. Qed.

Lemma length_app : forall a c,
  String.length (a ++ c) = String.length a + String.length c.
Proof. induction a as [|x a IH]; intros c; simpl; [reflexivity | rewrite IH; reflexivity]. Qed.

Lemma strip_bang_cons : forall c s,
  strip_bang (String c s) = if Ascii.eqb c bang then (s, true) else (String c s, false).
Proof.
  intros c s. unfold strip_bang. simpl. destruct (Ascii.eqb c bang); [|reflexivity].
  unfold slice_from, slice. simpl. rewrite Nat.sub_0_r, substring_0_full. reflexivity.
Qed.

(** Stripping the ['!'] of [h ++ "<" ++ rest] strips it off [h]. *)
Lemma strip_bang_app_lt : forall h rest,
  strip_bang (h ++ String lt_char rest) =
  (fst (strip_bang h) ++ String lt_char rest, snd (strip_bang h)).
Proof.
  intros [|c h] rest; [reflexivity|].
  simpl. rewrite !strip_bang_cons. destruct (Ascii.eqb c bang); reflexivity.
Qed.

Lemma strip_bang_in : forall c h,
  In c (list_ascii_of_string (fst (strip_bang h))) -> In c (list_ascii_of_string h).
Proof.
  intros c [|x h]; [simpl; tauto|].
  rewrite strip_bang_cons. destruct (Ascii.eqb x bang); simpl; tauto.
Qed.

Lemma find_app_first : forall c a rest,
  find c a = None -> find c (a ++ String c rest) = Some (String.length a).
Proof.
  intros c a rest; induction a as [|x a IH]; intros H; simpl in *.
  - rewrite Ascii.eqb_refl. reflexivity.
  - destruct (Ascii.eqb x c); [discriminate|].
    destruct (find c a); [discriminate|]. rewrite IH by reflexivity. reflexivity.
Qed.

(** On [ty = h ++ "<" ++ b ++ ">"] with no ['<'] in [h], [from_str] takes
    the generic branch with head [h] and argument body [b]. *)
Lemma from_str_generic_app : forall h b,
  ~ In lt_char (list_ascii_of_string h) ->
  from_str (h ++ "<" ++ b ++ ">") =
  match from_str b with
  | Err e => Err e
  | Ok g => parse_path (fst (strip_bang h)) (snd (strip_bang h)) (Some g)
  end.
Proof.
  intros h b Hh. rewrite from_str_eq.
  change (h ++ "<" ++ b ++ ">") with (h ++ String lt_char (b ++ String gt_char EmptyString)).
  rewrite strip_bang_app_lt.
  destruct (strip_bang h) as [ty gr] eqn:Hs.
  assert (find lt_char ty = None) as Hty.
  { apply find_none_iff. intros Hin. apply Hh, (strip_bang_in _ h). rewrite Hs. exact Hin. }
  cbn [fst snd]. rewrite (find_app_first _ _ _ Hty). cbv beta iota.
  assert (ends_with gt_char (ty ++ String lt_char (b ++ String gt_char EmptyString)) = true)
    as He.
  { apply ends_with_true_iff. exists (ty ++ String lt_char b).
    rewrite <- string_app_assoc. reflexivity. }
  rewrite He. simpl negb. cbv iota.
  unfold slice. rewrite Nat.sub_0_r, substring_app_prefix.
  rewrite length_app. simpl String.length. rewrite length_app. simpl String.length.
  replace (String.length ty + S (String.length b + 1) - 1 - S (String.length ty))
    with (String.length b) by lia.
  replace (S (String.length ty)) with (String.length ty + 1) by lia.
  rewrite substring_app_skip. simpl substring.
  rewrite substring_app_prefix.
  reflexivity.
Qed.

(** Without ['<'] the whole remainder is the dotted path. *)
Lemma from_str_no_lt : forall s,
  ~ In lt_char (list_ascii_of_string (fst (strip_bang s))) ->
  from_str s = parse_path (fst (strip_bang s)) (snd (strip_bang s)) None.
Proof.
  intros s H. rewrite from_str_eq. destruct (strip_bang s) as [ty gr]. simpl in *.
  apply find_none_iff in H. rewrite H. reflexivity.
Qed.

Lemma parse_path_set_generic_arg : forall ty gr t g,
  parse_path ty gr None = Ok t ->
  generic_arg t = None /\
  parse_path ty gr (Some g) =
  Ok (mkType (namespace t) (name t) (bare t) (generic_ref t) (Some g)).
Proof.
  intros ty gr t g H. unfold parse_path in *.
  destruct (existsb is_empty (split dot ty)); [discriminate|].
  injection H as <-. split; reflexivity.
Qed.

(** ** Successful parses *)

(** The well-formedness of a parsed type that the spec states
    (Data model, Invariants), at every nesting level. *)
Fixpoint type_invariant (t : Type_) : Prop :=
  match t with
  | mkType ns n _ _ ga =>
      n <> EmptyString /\ Forall (fun part => part <> EmptyString) ns /\
      match ga with
      | Some g => type_invariant g
      | None => True
      end
  end.

Lemma parse_path_Ok : forall ty gr ga t,
  parse_path ty gr ga = Ok t ->
  name t <> EmptyString /\
  Forall (fun part => part <> EmptyString) (namespace t) /\
  generic_arg t = ga /\ generic_ref t = gr /\
  bare t = match first_char (name t) with
           | Some c => is_ascii_lowercase c
           | None => false
           end.
Proof.
  intros ty gr ga t H. unfold parse_path in H.
  destruct (existsb is_empty (split dot ty)) eqn:E; [discriminate|].
  injection H as <-. simpl.
  assert (forall x, In x (split dot ty) -> x <> EmptyString) as Hne.
  { intros x Hin ->.
    assert (existsb is_empty (split dot ty) = true) by (apply existsb_exists; eauto).
    congruence. }
  pose proof (app_removelast_last EmptyString (split_not_nil dot ty)) as Hsplit.
  repeat split; try reflexivity.
  - apply Hne. rewrite Hsplit at 2. apply in_or_app. right. left. reflexivity.
  - apply Forall_forall. intros x Hin. apply Hne.
    rewrite Hsplit. apply in_or_app. left. exact Hin.
Qed.

(** Every successful parse ends in [parse_path] on the remainder of the
    input, with the reference flag read off the leading ['!']. *)
Lemma from_str_Ok_inv : forall s t,
  from_str s = Ok t ->
  exists ty ga, parse_path ty (snd (strip_bang s)) ga = Ok t.
Proof.
  intros s t H. rewrite from_str_eq in H.
  destruct (strip_bang s) as [ty gr]. simpl.
  destruct (find lt_char ty) as [pos|]; [|eauto].
  destruct (negb (ends_with gt_char ty)); [discriminate|].
  destruct (from_str _) as [g|e]; [eauto | discriminate].
Qed.

Lemma strip_bang_snd_iff : forall s,
  snd (strip_bang s) = true <-> exists rest, s = String bang rest.
Proof.
  intros [|c s]; simpl.
  - split; [discriminate | intros [rest H]; discriminate].
  - rewrite strip_bang_cons. destruct (Ascii.eqb c bang) eqn:E; simpl.
    + apply Ascii.eqb_eq in E. subst. split; eauto.
    + split; [discriminate|]. intros [rest H]. injection H as -> _.
      rewrite Ascii.eqb_refl in E. discriminate.
Qed.

Lemma from_str_Ok_invariant_aux : forall n s t,
  String.length s < n -> from_str s = Ok t -> type_invariant t.
Proof.
  induction n as [|n IH]; intros s t Hn H; [lia|].
  rewrite from_str_eq in H.
  destruct (strip_bang s) as [ty gr] eqn:Hs.
  destruct (find lt_char ty) as [pos|] eqn:Hf.
  - destruct (negb (ends_with gt_char ty)); [discriminate|].
    destruct (from_str (slice (S pos) (String.length ty - 1) ty)) as [g|e] eqn:Hg;
      [|discriminate].
    apply parse_path_Ok in H. destruct t as [ns nm b r ga]; simpl in *.
    destruct H as (Hnm & Hns & -> & _). repeat split; auto.
    apply (IH _ _ (Nat.lt_le_trans _ _ _ (generic_body_shorter _ _ _ _ Hs Hf) (le_S_n _ _ Hn)) Hg).
  - apply parse_path_Ok in H. destruct t as [ns nm b r ga]; simpl in *.
    destruct H as (Hnm & Hns & -> & _). repeat split; auto.
Qed.

(** ** Claims *)

(** C1: a non-empty string [s] containing none of ['.'], ['<'], ['>'],
    ['!'] parses to the unqualified, non-generic, non-reference type
    named [s], bare exactly when its first character is an ASCII
    lowercase letter. *)
Theorem from_str_plain_name : forall (c : ascii) (rest : string),
  ~ In dot (list_ascii_of_string (String c rest)) ->
  ~ In lt_char (list_ascii_of_string (String c rest)) ->
  ~ In gt_char (list_ascii_of_string (String c rest)) ->
  ~ In bang (list_ascii_of_string (String c rest)) ->
  from_str (String c rest) =
  Ok (mkType [] (String c rest) (is_ascii_lowercase c) false None).
Proof.
  intros c rest Hdot Hlt _ Hbang.
  rewrite from_str_eq.
  rewrite strip_bang_no_bang.
  2:{ simpl. apply Ascii.eqb_neq. intros ->. apply Hbang. left. reflexivity. }
  apply find_none_iff in Hlt. rewrite Hlt.
  unfold parse_path. rewrite (split_no_sep _ _ Hdot). reflexivity.
Qed.

(** C3: [from_str ""] fails with [Empty]; on inputs whose remainder
    after an optional leading ['!'] has no ['<'], the parser fails with
    [Empty] exactly when the split of that remainder on ['.'] has an
    empty component; in particular [.], [..], [.foo], [foo.], [foo..foo]
    and [.foo.] fail with [Empty]. *)
Theorem from_str_Empty_components :
  from_str "" = Err Empty /\
  (forall s,
     ~ In lt_char (list_ascii_of_string (fst (strip_bang s))) ->
     (from_str s = Err Empty <->
      In EmptyString (split dot (fst (strip_bang s))))) /\
  from_str "." = Err Empty /\ from_str ".." = Err Empty /\
  from_str ".foo" = Err Empty /\ from_str "foo." = Err Empty /\
  from_str "foo..foo" = Err Empty /\ from_str ".foo." = Err Empty.
Proof.
  split; [reflexivity|].
  split; [|repeat split; reflexivity].
  intros s Hlt. rewrite from_str_eq.
  destruct (strip_bang s) as [ty gr]. simpl in *.
  apply find_none_iff in Hlt. rewrite Hlt.
  apply parse_path_Err_Empty_iff.
Qed.

(** C4: when the remainder after an optional leading ['!'] contains a
    ['<'] but does not end with ['>'], the parser fails with
    [BadGeneric], before looking at the head. *)
Theorem from_str_BadGeneric : forall s,
  In lt_char (list_ascii_of_string (fst (strip_bang s))) ->
  ~ (exists p, fst (strip_bang s) = p ++ String gt_char EmptyString) ->
  from_str s = Err BadGeneric.
Proof.
  intros s Hlt Hgt. rewrite from_str_eq.
  destruct (strip_bang s) as [ty gr]. simpl in *.
  destruct (find lt_char ty) as [pos|] eqn:Hf.
  - destruct (ends_with gt_char ty) eqn:He; [|reflexivity].
    exfalso. apply Hgt. apply ends_with_true_iff. exact He.
  - apply find_none_iff in Hf. contradiction.
Qed.

(** C10: without a ['<'] (after an optional leading ['!']) the parser
    never fails with [BadGeneric]; a stray ['>'] is an ordinary name
    character, as in [>] and [foo>]. *)
Theorem from_str_stray_gt : 
  (forall s,
     ~ In lt_char (list_ascii_of_string (fst (strip_bang s))) ->
     from_str s <> Err BadGeneric) /\
  from_str ">" = Ok (mkType [] ">" false false None) /\
  (exists t, from_str "foo>" = Ok t /\ name t = "foo>").
Proof.
  split; [|split; [reflexivity | exists (mkType [] "foo>" true false None); split; reflexivity]].
  intros s Hlt. rewrite from_str_eq.
  destruct (strip_bang s) as [ty gr]. simpl in *.
  apply find_none_iff in Hlt. rewrite Hlt.
  apply parse_path_not_BadGeneric.
Qed.

(** C2: for a head [h] without ['<'] that parses to [t] (which then has
    no generic argument) and a body [b] that parses to [g],
    [h<b>] parses to [t] with generic argument [g] and every other field
    unchanged; in particular [foo<bar<baz>>] carries the parse of
    [bar<baz>] as its generic argument. *)
Theorem from_str_generic_compose :
  (forall h b t g,
     ~ In lt_char (list_ascii_of_string h) ->
     from_str h = Ok t ->
     from_str b = Ok g ->
     generic_arg t = None /\
     from_str (h ++ "<" ++ b ++ ">") =
     Ok (mkType (namespace t) (name t) (bare t) (generic_ref t) (Some g))) /\
  (exists g t, from_str "bar<baz>" = Ok g /\ from_str "foo<bar<baz>>" = Ok t /\
               generic_arg t = Some g).
Proof.
  split.
  - intros h b t g Hh Ht Hg.
    rewrite from_str_no_lt in Ht by (intros Hin; apply Hh, (strip_bang_in _ _ Hin)).
    rewrite (from_str_generic_app _ _ Hh), Hg.
    apply parse_path_set_generic_arg, Ht.
  - eexists; eexists; split; [|split]; [vm_compute; reflexivity .. |].
    reflexivity.
Qed.

(** C5: an error of the generic argument's parse is the error of the
    whole parse, unchanged. *)
Theorem from_str_generic_error : forall h b e,
  ~ In lt_char (list_ascii_of_string h) ->
  from_str b = Err e ->
  from_str (h ++ "<" ++ b ++ ">") = Err e.
Proof.
  intros h b e Hh Hb. rewrite (from_str_generic_app _ _ Hh), Hb. reflexivity.
Qed.

(** C6: every successfully parsed type has a non-empty name and no empty
    namespace component, and so does its generic argument, recursively. *)
Theorem from_str_Ok_invariant : forall s t,
  from_str s = Ok t -> type_invariant t.
Proof.
  intros s t H. exact (from_str_Ok_invariant_aux (S (String.length s)) s t (Nat.lt_succ_diag_r _) H).
Qed.

(** C7: a parsed type is bare exactly when the first character of its
    name is an ASCII lowercase letter, whatever its namespace and
    generic flags: [Foo.bar] is bare, [foo.Bar], [_x], [1x] and a name
    starting with a non-ASCII byte are boxed. *)
Theorem from_str_bare_iff :
  (forall s t,
     from_str s = Ok t ->
     (bare t = true <->
      exists c rest, name t = String c rest /\ is_ascii_lowercase c = true)) /\
  (exists t, from_str "Foo.bar" = Ok t /\ bare t = true) /\
  (exists t, from_str "foo.Bar" = Ok t /\ bare t = false) /\
  (exists t, from_str "_x" = Ok t /\ bare t = false) /\
  (exists t, from_str "1x" = Ok t /\ bare t = false) /\
  (exists t, from_str (String (ascii_of_nat 195) (String (ascii_of_nat 169) EmptyString))
             = Ok t /\ bare t = false).
Proof.
  split.
  2:{ repeat match goal with |- _ /\ _ => split end.
      all: eexists; split; [vm_compute; reflexivity | reflexivity]. }
  intros s t H.
  destruct (from_str_Ok_inv _ _ H) as (ty & ga & Hp).
  apply parse_path_Ok in Hp. destruct Hp as (Hnm & _ & _ & _ & Hb).
  rewrite Hb. destruct (name t) as [|c rest]; [contradiction|]. simpl.
  split; [eauto|]. intros (c' & rest' & Heq & Hl). injection Heq as -> _. exact Hl.
Qed.

(** C8: a parsed type is a generic reference exactly when the input
    starts with ['!'], independently of its generic argument: [!X<int>]
    is a generic reference whose generic argument is the parse of [int]. *)
Theorem from_str_generic_ref_iff :
  (forall s t,
     from_str s = Ok t ->
     (generic_ref t = true <-> exists rest, s = String bang rest)) /\
  (exists t g, from_str "!X<int>" = Ok t /\ generic_ref t = true /\
               from_str "int" = Ok g /\ generic_arg t = Some g).
Proof.
  split.
  - intros s t H.
    destruct (from_str_Ok_inv _ _ H) as (ty & ga & Hp).
    apply parse_path_Ok in Hp. destruct Hp as (_ & _ & _ & -> & _).
    apply strip_bang_snd_iff.
  - eexists; eexists; split; [vm_compute; reflexivity|].
    split; [reflexivity|]. split; [vm_compute; reflexivity | reflexivity].
Qed.

(** C9: [from_str] is a total function, defined by well-founded
    recursion on the length of its input: the one recursive call, on the
    generic argument body [&ty[pos + 1..ty.len() - 1]], receives a
    strictly shorter string than the caller's input. *)
Theorem from_str_recursive_call_shorter : forall ty0 ty generic_ref pos,
  strip_bang ty0 = (ty, generic_ref) ->
  find lt_char ty = Some pos ->
  String.length (slice (S pos) (String.length ty - 1) ty) < String.length ty0.
Proof.
  exact generic_body_shorter.
Qed.

(** ** The claims at concrete inputs *)

(** Closes [~ In c (list_ascii_of_string s)] for concrete [c] and [s]. *)
Ltac not_in :=
  let H := fresh "H" in
  intros H; simpl in H; repeat (destruct H as [H|H]; [discriminate H|]); exact H.

Lemma from_str_plain_name_witness :
  (~ In dot (list_ascii_of_string "foo") /\ ~ In lt_char (list_ascii_of_string "foo") /\
   ~ In gt_char (list_ascii_of_string "foo") /\ ~ In bang (list_ascii_of_string "foo")) /\
  from_str "foo" = Ok (mkType [] "foo" true false None).
Proof.
  split; [repeat split; not_in|].
  apply (from_str_plain_name "f" "oo"); not_in.
Defined.

Lemma from_str_generic_compose_witness :
  ~ In lt_char (list_ascii_of_string "foo") /\
  from_str "foo" = Ok (mkType [] "foo" true false None) /\
  from_str "bar" = Ok (mkType [] "bar" true false None) /\
  (generic_arg (mkType [] "foo" true false None) = None /\
   from_str ("foo" ++ "<" ++ "bar" ++ ">") =
   Ok (mkType [] "foo" true false (Some (mkType [] "bar" true false None)))).
Proof.
  split; [not_in|]. split; [reflexivity|]. split; [reflexivity|].
  apply (proj1 from_str_generic_compose "foo" "bar"); [not_in | reflexivity | reflexivity].
Defined.

Lemma from_str_Empty_components_witness :
  ~ In lt_char (list_ascii_of_string (fst (strip_bang "!foo..bar"))) /\
  (from_str "!foo..bar" = Err Empty <->
   In EmptyString (split dot (fst (strip_bang "!foo..bar")))).
Proof.
  split; [vm_compute; not_in|].
  apply (proj1 (proj2 from_str_Empty_components) "!foo..bar"). vm_compute; not_in.
Defined.

Lemma from_str_BadGeneric_witness :
  In lt_char (list_ascii_of_string (fst (strip_bang "!foo<bar"))) /\
  ~ (exists p, fst (strip_bang "!foo<bar") = p ++ String gt_char EmptyString) /\
  from_str "!foo<bar" = Err BadGeneric.
Proof.
  assert (In lt_char (list_ascii_of_string (fst (strip_bang "!foo<bar")))) as Hlt
    by (vm_compute; tauto).
  assert (~ (exists p, fst (strip_bang "!foo<bar") = p ++ String gt_char EmptyString)) as Hgt
    by (intros H; apply ends_with_true_iff in H; vm_compute in H; discriminate H).
  split; [exact Hlt|]. split; [exact Hgt|].
  apply from_str_BadGeneric; assumption.
Defined.

Lemma from_str_generic_error_witness :
  ~ In lt_char (list_ascii_of_string "foo") /\
  from_str "bar." = Err Empty /\
  from_str ("foo" ++ "<" ++ "bar." ++ ">") = Err Empty.
Proof.
  split; [not_in|]. split; [reflexivity|].
  apply from_str_generic_error; [not_in | reflexivity].
Defined.

Lemma from_str_Ok_invariant_witness :
  from_str "ns.foo<bar.Baz>" =
  Ok (mkType ["ns"] "foo" true false (Some (mkType ["bar"] "Baz" false false None))) /\
  type_invariant
    (mkType ["ns"] "foo" true false (Some (mkType ["bar"] "Baz" false false None))).
Proof.
  split; [reflexivity|].
  apply (from_str_Ok_invariant "ns.foo<bar.Baz>"). reflexivity.
Defined.

Lemma from_str_bare_iff_witness :
  from_str "Foo.bar" = Ok (mkType ["Foo"] "bar" true false None) /\
  (bare (mkType ["Foo"] "bar" true false None) = true <->
   exists c rest, name (mkType ["Foo"] "bar" true false None) = String c rest /\
                  is_ascii_lowercase c = true).
Proof.
  split; [reflexivity|].
  apply (proj1 from_str_bare_iff "Foo.bar"). reflexivity.
Defined.

Lemma from_str_generic_ref_iff_witness :
  from_str "!X" = Ok (mkType [] "X" false true None) /\
  (generic_ref (mkType [] "X" false true None) = true <->
   exists rest, "!X" = String bang rest).
Proof.
  split; [reflexivity|].
  apply (proj1 from_str_generic_ref_iff "!X"). reflexivity.
Defined.

Lemma from_str_recursive_call_shorter_witness :
  strip_bang "!foo<bar>" = ("foo<bar>", true) /\
  find lt_char "foo<bar>" = Some 3 /\
  String.length (slice 4 (String.length "foo<bar>" - 1) "foo<bar>") <
  String.length "!foo<bar>".
Proof.
  split; [reflexivity|]. split; [reflexivity|].
  apply (from_str_recursive_call_shorter "!foo<bar>" "foo<bar>" true 3); reflexivity.
Defined.

Lemma from_str_stray_gt_witness :
  ~ In lt_char (list_ascii_of_string (fst (strip_bang "!foo>"))) /\
  from_str "!foo>" <> Err BadGeneric.
Proof.
  split; [vm_compute; not_in|].
  apply (proj1 from_str_stray_gt "!foo>"). vm_compute; not_in.
Defined.

(** * Rights builders of the client ([grammers-client], types/chats.rs) *)

(** [tl::types::ChatAdminRights]: the ten administrator rights. *)
Module ChatAdminRights.

Record t : Set := mk {
  anonymous : bool;
  change_info : bool;
  post_messages : bool;
  edit_messages : bool;
  delete_messages : bool;
  ban_users : bool;
  invite_users : bool;
  pin_messages : bool;
  add_admins : bool;
  manage_call : bool
}.

(** The names of the fields, to speak of any one of them. *)
Inductive field : Set :=
| Anonymous
| ChangeInfo
| PostMessages
| EditMessages
| DeleteMessages
| BanUsers
| InviteUsers
| PinMessages
| AddAdmins
| ManageCall.

Definition field_eqb (a b : field) : bool :=
  match a, b with
  | Anonymous, Anonymous => true
  | ChangeInfo, ChangeInfo => true
  | PostMessages, PostMessages => true
  | EditMessages, EditMessages => true
  | DeleteMessages, DeleteMessages => true
  | BanUsers, BanUsers => true
  | InviteUsers, InviteUsers => true
  | PinMessages, PinMessages => true
  | AddAdmins, AddAdmins => true
  | ManageCall, ManageCall => true
  | _, _ => false
  end.

(** Reading a field: [rights.<field>]. *)
Definition get (f : field) (r : t) : bool :=
  match f with
  | Anonymous => r.(anonymous)
  | ChangeInfo => r.(change_info)
  | PostMessages => r.(post_messages)
  | EditMessages => r.(edit_messages)
  | DeleteMessages => r.(delete_messages)
  | BanUsers => r.(ban_users)
  | InviteUsers => r.(invite_users)
  | PinMessages => r.(pin_messages)
  | AddAdmins => r.(add_admins)
  | ManageCall => r.(manage_call)
  end.

(** [rights.anonymous = v]. *)
Definition set_anonymous (r : t) (v : bool) : t :=
  {| anonymous := v; change_info := r.(change_info); post_messages := r.(post_messages); edit_messages := r.(edit_messages); delete_messages := r.(delete_messages); ban_users := r.(ban_users); invite_users := r.(invite_users); pin_messages := r.(pin_messages); add_admins := r.(add_admins); manage_call := r.(manage_call) |}.

(** [rights.change_info = v]. *)
Definition set_change_info (r : t) (v : bool) : t :=
  {| anonymous := r.(anonymous); change_info := v; post_messages := r.(post_messages); edit_messages := r.(edit_messages); delete_messages := r.(delete_messages); ban_users := r.(ban_users); invite_users := r.(invite_users); pin_messages := r.(pin_messages); add_admins := r.(add_admins); manage_call := r.(manage_call) |}.

(** [rights.post_messages = v]. *)
Definition set_post_messages (r : t) (v : bool) : t :=
  {| anonymous := r.(anonymous); change_info := r.(change_info); post_messages := v; edit_messages := r.(edit_messages); delete_messages := r.(delete_messages); ban_users := r.(ban_users); invite_users := r.(invite_users); pin_messages := r.(pin_messages); add_admins := r.(add_admins); manage_call := r.(manage_call) |}.

(** [rights.edit_messages = v]. *)
Definition set_edit_messages (r : t) (v : bool) : t :=
  {| anonymous := r.(anonymous); change_info := r.(change_info); post_messages := r.(post_messages); edit_messages := v; delete_messages := r.(delete_messages); ban_users := r.(ban_users); invite_users := r.(invite_users); pin_messages := r.(pin_messages); add_admins := r.(add_admins); manage_call := r.(manage_call) |}.

(** [rights.delete_messages = v]. *)
Definition set_delete_messages (r : t) (v : bool) : t :=
  {| anonymous := r.(anonymous); change_info := r.(change_info); post_messages := r.(post_messages); edit_messages := r.(edit_messages); delete_messages := v; ban_users := r.(ban_users); invite_users := r.(invite_users); pin_messages := r.(pin_messages); add_admins := r.(add_admins); manage_call := r.(manage_call) |}.

(** [rights.ban_users = v]. *)
Definition set_ban_users (r : t) (v : bool) : t :=
  {| anonymous := r.(anonymous); change_info := r.(change_info); post_messages := r.(post_messages); edit_messages := r.(edit_messages); delete_messages := r.(delete_messages); ban_users := v; invite_users := r.(invite_users); pin_messages := r.(pin_messages); add_admins := r.(add_admins); manage_call := r.(manage_call) |}.

(** [rights.invite_users = v]. *)
Definition set_invite_users (r : t) (v : bool) : t :=
  {| anonymous := r.(anonymous); change_info := r.(change_info); post_messages := r.(post_messages); edit_messages := r.(edit_messages); delete_messages := r.(delete_messages); ban_users := r.(ban_users); invite_users := v; pin_messages := r.(pin_messages); add_admins := r.(add_admins); manage_call := r.(manage_call) |}.

(** [rights.pin_messages = v]. *)
Definition set_pin_messages (r : t) (v : bool) : t :=
  {| anonymous := r.(anonymous); change_info := r.(change_info); post_messages := r.(post_messages); edit_messages := r.(edit_messages); delete_messages := r.(delete_messages); ban_users := r.(ban_users); invite_users := r.(invite_users); pin_messages := v; add_admins := r.(add_admins); manage_call := r.(manage_call) |}.

(** [rights.add_admins = v]. *)
Definition set_add_admins (r : t) (v : bool) : t :=
  {| anonymous := r.(anonymous); change_info := r.(change_info); post_messages := r.(post_messages); edit_messages := r.(edit_messages); delete_messages := r.(delete_messages); ban_users := r.(ban_users); invite_users := r.(invite_users); pin_messages := r.(pin_messages); add_admins := v; manage_call := r.(manage_call) |}.

(** [rights.manage_call = v]. *)
Definition set_manage_call (r : t) (v : bool) : t :=
  {| anonymous := r.(anonymous); change_info := r.(change_info); post_messages := r.(post_messages); edit_messages := r.(edit_messages); delete_messages := r.(delete_messages); ban_users := r.(ban_users); invite_users := r.(invite_users); pin_messages := r.(pin_messages); add_admins := r.(add_admins); manage_call := v |}.


(** [tl::enums::ChatAdminRights], whose only constructor is [Rights]. *)
Inductive enum : Set := Rights (r : t).

(** [impl From<enums::ChatAdminRights> for types::ChatAdminRights]. *)
Definition into (e : enum) : t :=
  match e with Rights r => r end.

End ChatAdminRights.

(** [tl::types::ChatBannedRights]: each flag set to [true] takes the
    permission away; [until_date] is an [i32] epoch time, [0] for
    permanent. *)
Module ChatBannedRights.

Record t : Set := mk {
  view_messages : bool;
  send_messages : bool;
  send_media : bool;
  send_stickers : bool;
  send_gifs : bool;
  send_games : bool;
  send_inline : bool;
  embed_links : bool;
  send_polls : bool;
  change_info : bool;
  invite_users : bool;
  pin_messages : bool;
  until_date : Z
}.

(** The names of the boolean fields. *)
Inductive field : Set :=
| ViewMessages
| SendMessages
| SendMedia
| SendStickers
| SendGifs
| SendGames
| SendInline
| EmbedLinks
| SendPolls
| ChangeInfo
| InviteUsers
| PinMessages.

Definition field_eqb (a b : field) : bool :=
  match a, b with
  | ViewMessages, ViewMessages => true
  | SendMessages, SendMessages => true
  | SendMedia, SendMedia => true
  | SendStickers, SendStickers => true
  | SendGifs, SendGifs => true
  | SendGames, SendGames => true
  | SendInline, SendInline => true
  | EmbedLinks, EmbedLinks => true
  | SendPolls, SendPolls => true
  | ChangeInfo, ChangeInfo => true
  | InviteUsers, InviteUsers => true
  | PinMessages, PinMessages => true
  | _, _ => false
  end.

(** Reading a flag: [rights.<field>]. *)
Definition get (f : field) (r : t) : bool :=
  match f with
  | ViewMessages => r.(view_messages)
  | SendMessages => r.(send_messages)
  | SendMedia => r.(send_media)
  | SendStickers => r.(send_stickers)
  | SendGifs => r.(send_gifs)
  | SendGames => r.(send_games)
  | SendInline => r.(send_inline)
  | EmbedLinks => r.(embed_links)
  | SendPolls => r.(send_polls)
  | ChangeInfo => r.(change_info)
  | InviteUsers => r.(invite_users)
  | PinMessages => r.(pin_messages)
  end.

(** [rights.view_messages = v]. *)
Definition set_view_messages (r : t) (v : bool) : t :=
  {| view_messages := v; send_messages := r.(send_messages); send_media := r.(send_media); send_stickers := r.(send_stickers); send_gifs := r.(send_gifs); send_games := r.(send_games); send_inline := r.(send_inline); embed_links := r.(embed_links); send_polls := r.(send_polls); change_info := r.(change_info); invite_users := r.(invite_users); pin_messages := r.(pin_messages); until_date := r.(until_date) |}.

(** [rights.send_messages = v]. *)
Definition set_send_messages (r : t) (v : bool) : t :=
  {| view_messages := r.(view_messages); send_messages := v; send_media := r.(send_media); send_stickers := r.(send_stickers); send_gifs := r.(send_gifs); send_games := r.(send_games); send_inline := r.(send_inline); embed_links := r.(embed_links); send_polls := r.(send_polls); change_info := r.(change_info); invite_users := r.(invite_users); pin_messages := r.(pin_messages); until_date := r.(until_date) |}.

(** [rights.send_media = v]. *)
Definition set_send_media (r : t) (v : bool) : t :=
  {| view_messages := r.(view_messages); send_messages := r.(send_messages); send_media := v; send_stickers := r.(send_stickers); send_gifs := r.(send_gifs); send_games := r.(send_games); send_inline := r.(send_inline); embed_links := r.(embed_links); send_polls := r.(send_polls); change_info := r.(change_info); invite_users := r.(invite_users); pin_messages := r.(pin_messages); until_date := r.(until_date) |}.

(** [rights.send_stickers = v]. *)
Definition set_send_stickers (r : t) (v : bool) : t :=
  {| view_messages := r.(view_messages); send_messages := r.(send_messages); send_media := r.(send_media); send_stickers := v; send_gifs := r.(send_gifs); send_games := r.(send_games); send_inline := r.(send_inline); embed_links := r.(embed_links); send_polls := r.(send_polls); change_info := r.(change_info); invite_users := r.(invite_users); pin_messages := r.(pin_messages); until_date := r.(until_date) |}.

(** [rights.send_gifs = v]. *)
Definition set_send_gifs (r : t) (v : bool) : t :=
  {| view_messages := r.(view_messages); send_messages := r.(send_messages); send_media := r.(send_media); send_stickers := r.(send_stickers); send_gifs := v; send_games := r.(send_games); send_inline := r.(send_inline); embed_links := r.(embed_links); send_polls := r.(send_polls); change_info := r.(change_info); invite_users := r.(invite_users); pin_messages := r.(pin_messages); until_date := r.(until_date) |}.

(** [rights.send_games = v]. *)
Definition set_send_games (r : t) (v : bool) : t :=
  {| view_messages := r.(view_messages); send_messages := r.(send_messages); send_media := r.(send_media); send_stickers := r.(send_stickers); send_gifs := r.(send_gifs); send_games := v; send_inline := r.(send_inline); embed_links := r.(embed_links); send_polls := r.(send_polls); change_info := r.(change_info); invite_users := r.(invite_users); pin_messages := r.(pin_messages); until_date := r.(until_date) |}.

(** [rights.send_inline = v]. *)
Definition set_send_inline (r : t) (v : bool) : t :=
  {| view_messages := r.(view_messages); send_messages := r.(send_messages); send_media := r.(send_media); send_stickers := r.(send_stickers); send_gifs := r.(send_gifs); send_games := r.(send_games); send_inline := v; embed_links := r.(embed_links); send_polls := r.(send_polls); change_info := r.(change_info); invite_users := r.(invite_users); pin_messages := r.(pin_messages); until_date := r.(until_date) |}.

(** [rights.embed_links = v]. *)
Definition set_embed_links (r : t) (v : bool) : t :=
  {| view_messages := r.(view_messages); send_messages := r.(send_messages); send_media := r.(send_media); send_stickers := r.(send_stickers); send_gifs := r.(send_gifs); send_games := r.(send_games); send_inline := r.(send_inline); embed_links := v; send_polls := r.(send_polls); change_info := r.(change_info); invite_users := r.(invite_users); pin_messages := r.(pin_messages); until_date := r.(until_date) |}.

(** [rights.send_polls = v]. *)
Definition set_send_polls (r : t) (v : bool) : t :=
  {| view_messages := r.(view_messages); send_messages := r.(send_messages); send_media := r.(send_media); send_stickers := r.(send_stickers); send_gifs := r.(send_gifs); send_games := r.(send_games); send_inline := r.(send_inline); embed_links := r.(embed_links); send_polls := v; change_info := r.(change_info); invite_users := r.(invite_users); pin_messages := r.(pin_messages); until_date := r.(until_date) |}.

(** [rights.change_info = v]. *)
Definition set_change_info (r : t) (v : bool) : t :=
  {| view_messages := r.(view_messages); send_messages := r.(send_messages); send_media := r.(send_media); send_stickers := r.(send_stickers); send_gifs := r.(send_gifs); send_games := r.(send_games); send_inline := r.(send_inline); embed_links := r.(embed_links); send_polls := r.(send_polls); change_info := v; invite_users := r.(invite_users); pin_messages := r.(pin_messages); until_date := r.(until_date) |}.

(** [rights.invite_users = v]. *)
Definition set_invite_users (r : t) (v : bool) : t :=
  {| view_messages := r.(view_messages); send_messages := r.(send_messages); send_media := r.(send_media); send_stickers := r.(send_stickers); send_gifs := r.(send_gifs); send_games := r.(send_games); send_inline := r.(send_inline); embed_links := r.(embed_links); send_polls := r.(send_polls); change_info := r.(change_info); invite_users := v; pin_messages := r.(pin_messages); until_date := r.(until_date) |}.

(** [rights.pin_messages = v]. *)
Definition set_pin_messages (r : t) (v : bool) : t :=
  {| view_messages := r.(view_messages); send_messages := r.(send_messages); send_media := r.(send_media); send_stickers := r.(send_stickers); send_gifs := r.(send_gifs); send_games := r.(send_games); send_inline := r.(send_inline); embed_links := r.(embed_links); send_polls := r.(send_polls); change_info := r.(change_info); invite_users := r.(invite_users); pin_messages := v; until_date := r.(until_date) |}.

(** [rights.until_date = v]. *)
Definition set_until_date (r : t) (v : Z) : t :=
  {| view_messages := r.(view_messages); send_messages := r.(send_messages); send_media := r.(send_media); send_stickers := r.(send_stickers); send_gifs := r.(send_gifs); send_games := r.(send_games); send_inline := r.(send_inline); embed_links := r.(embed_links); send_polls := r.(send_polls); change_info := r.(change_info); invite_users := r.(invite_users); pin_messages := r.(pin_messages); until_date := v |}.

(** [tl::enums::ChatBannedRights], whose only constructor is [Rights]. *)
Inductive enum : Set := Rights (r : t).

(** [impl From<enums::ChatBannedRights> for types::ChatBannedRights]. *)
Definition into (e : enum) : t :=
  match e with Rights r => r end.

End ChatBannedRights.

(** [tl::enums::ChannelParticipant], the [participant] field of the
    answer to [channels.getParticipant]; of each variant only the fields
    the builders read are kept. *)
Inductive ChannelParticipant : Set :=
| Participant
| ParticipantSelf
| Creator (admin_rights : ChatAdminRights.enum) (rank : option string)
| Admin (admin_rights : ChatAdminRights.enum) (rank : option string)
| Banned (banned_rights : ChatBannedRights.enum)
| Left.

(** [Option::unwrap_or]. *)
Definition unwrap_or {A : Type} (o : option A) (d : A) : A :=
  match o with Some x => x | None => d end.

(** [tl::functions::channels::EditAdmin]. *)
Module EditAdmin.
Record t (InputChannel InputUser : Type) : Type := mk {
  channel : InputChannel;
  user_id : InputUser;
  admin_rights : ChatAdminRights.enum;
  rank : string
}.
Arguments mk {InputChannel InputUser}.
End EditAdmin.

(** [tl::functions::channels::EditBanned]. *)
Module EditBanned.
Record t (InputChannel InputUser : Type) : Type := mk {
  channel : InputChannel;
  user_id : InputUser;
  banned_rights : ChatBannedRights.enum
}.
Arguments mk {InputChannel InputUser}.
End EditBanned.

(** [pub struct AdminRightsBuilder]; the stored future [fut] is modelled
    by the client and the [EditAdmin] request it invokes. *)
Module AdminRightsBuilder.
Section Builder.
Context {ClientHandle InputChannel InputUser InvocationError : Type}.

Record t : Type := mk {
  client : ClientHandle;
  channel : InputChannel;
  user : InputUser;
  rights : ChatAdminRights.t;
  rank : string;
  fut : option (ClientHandle * EditAdmin.t InputChannel InputUser)
}.

(** [AdminRightsBuilder::new]: no right granted, empty rank, no future. *)
Definition new (client : ClientHandle) (channel : InputChannel) (user : InputUser) : t :=
  mk client channel user {| ChatAdminRights.anonymous := false; ChatAdminRights.change_info := false; ChatAdminRights.post_messages := false; ChatAdminRights.edit_messages := false; ChatAdminRights.delete_messages := false; ChatAdminRights.ban_users := false; ChatAdminRights.invite_users := false; ChatAdminRights.pin_messages := false; ChatAdminRights.add_admins := false; ChatAdminRights.manage_call := false |} "" None.

(** The builder with its [rights] replaced. *)
Definition with_rights (b : t) (r : ChatAdminRights.t) : t :=
  mk b.(client) b.(channel) b.(user) r b.(rank) b.(fut).

(** [pub fn anonymous(&mut self, val: bool)]: [self.rights.anonymous = val]. *)
Definition anonymous (val : bool) (b : t) : t :=
  with_rights b (ChatAdminRights.set_anonymous b.(rights) val).

(** [pub fn change_info(&mut self, val: bool)]: [self.rights.change_info = val]. *)
Definition change_info (val : bool) (b : t) : t :=
  with_rights b (ChatAdminRights.set_change_info b.(rights) val).

(** [pub fn post_messages(&mut self, val: bool)]: [self.rights.post_messages = val]. *)
Definition post_messages (val : bool) (b : t) : t :=
  with_rights b (ChatAdminRights.set_post_messages b.(rights) val).

(** [pub fn edit_messages(&mut self, val: bool)]: [self.rights.edit_messages = val]. *)
Definition edit_messages (val : bool) (b : t) : t :=
  with_rights b (ChatAdminRights.set_edit_messages b.(rights) val).

(** [pub fn delete_messages(&mut self, val: bool)]: [self.rights.delete_messages = val]. *)
Definition delete_messages (val : bool) (b : t) : t :=
  with_rights b (ChatAdminRights.set_delete_messages b.(rights) val).

(** [pub fn ban_users(&mut self, val: bool)]: [self.rights.ban_users = val]. *)
Definition ban_users (val : bool) (b : t) : t :=
  with_rights b (ChatAdminRights.set_ban_users b.(rights) val).

(** [pub fn invite_users(&mut self, val: bool)]: [self.rights.invite_users = val]. *)
Definition invite_users (val : bool) (b : t) : t :=
  with_rights b (ChatAdminRights.set_invite_users b.(rights) val).

(** [pub fn pin_messages(&mut self, val: bool)]: [self.rights.pin_messages = val]. *)
Definition pin_messages (val : bool) (b : t) : t :=
  with_rights b (ChatAdminRights.set_pin_messages b.(rights) val).

(** [pub fn add_admins(&mut self, val: bool)]: [self.rights.add_admins = val]. *)
Definition add_admins (val : bool) (b : t) : t :=
  with_rights b (ChatAdminRights.set_add_admins b.(rights) val).

(** [pub fn manage_call(&mut self, val: bool)]: [self.rights.manage_call = val]. *)
Definition manage_call (val : bool) (b : t) : t :=
  with_rights b (ChatAdminRights.set_manage_call b.(rights) val).

(** [pub fn rank(&mut self, val)]: [self.rank = val.into()]. *)
Definition set_rank (val : string) (b : t) : t :=
  mk b.(client) b.(channel) b.(user) b.(rights) val b.(fut).

(** The setter method of each right. *)
Definition setter (f : ChatAdminRights.field) : bool -> t -> t :=
  match f with
  | ChatAdminRights.Anonymous => anonymous
  | ChatAdminRights.ChangeInfo => change_info
  | ChatAdminRights.PostMessages => post_messages
  | ChatAdminRights.EditMessages => edit_messages
  | ChatAdminRights.DeleteMessages => delete_messages
  | ChatAdminRights.BanUsers => ban_users
  | ChatAdminRights.InviteUsers => invite_users
  | ChatAdminRights.PinMessages => pin_messages
  | ChatAdminRights.AddAdmins => add_admins
  | ChatAdminRights.ManageCall => manage_call
  end.

(** [impl Future for AdminRightsBuilder { fn poll }]: the first poll
    builds the [EditAdmin] request from the current rights and rank and
    stores the future that invokes it; every poll then drives the stored
    future.  The second component is the (client, request) pair that the
    polled future invokes. *)
Definition poll (b : t) : t * (ClientHandle * EditAdmin.t InputChannel InputUser) :=
  match b.(fut) with
  | Some call => (b, call)
  | None =>
      let call := EditAdmin.mk b.(channel) b.(user)
                    (ChatAdminRights.Rights b.(rights)) b.(rank) in
      let f := (b.(client), call) in
      (mk b.(client) b.(channel) b.(user) b.(rights) b.(rank) (Some f), f)
  end.

(** [pub async fn load_current]: [response] is the outcome of invoking
    [channels.getParticipant] (its [participant] field when it succeeds).
    An error is returned by [?] before the builder is touched; a creator
    or admin participant replaces the rights and the rank (an absent rank
    becoming [""]); any other participant leaves the builder as it is. *)
Definition load_current (response : Result ChannelParticipant InvocationError) (b : t)
    : t * Result unit InvocationError :=
  match response with
  | Err e => (b, Err e)
  | Ok participant =>
      let b' := match participant with
                | Creator r rk | Admin r rk =>
                    mk b.(client) b.(channel) b.(user)
                       (ChatAdminRights.into r) (unwrap_or rk EmptyString) b.(fut)
                | _ => b
                end in
      (b', Ok tt)
  end.

(** A call of one of the builder's setter methods. *)
Inductive op : Type :=
| SetRight (f : ChatAdminRights.field) (val : bool)
| SetRank (val : string).

Definition run_op (o : op) (b : t) : t :=
  match o with
  | SetRight f v => setter f v b
  | SetRank s => set_rank s b
  end.

(** A chain of setter calls [b.m1(..).m2(..)...], left to right. *)
Fixpoint run_ops (ops : list op) (b : t) : t :=
  match ops with
  | [] => b
  | o :: ops => run_ops ops (run_op o b)
  end.

(** The value the last call in [ops] gave to right [f], if any. *)
Fixpoint last_right (f : ChatAdminRights.field) (ops : list op) : option bool :=
  match ops with
  | [] => None
  | SetRight g v :: ops =>
      match last_right f ops with
      | Some v' => Some v'
      | None => if ChatAdminRights.field_eqb f g then Some v else None
      end
  | SetRank _ :: ops => last_right f ops
  end.

(** The rank the last [rank] call in [ops] set, if any. *)
Fixpoint last_rank (ops : list op) : option string :=
  match ops with
  | [] => None
  | SetRank s :: ops =>
      match last_rank ops with Some s' => Some s' | None => Some s end
  | SetRight _ _ :: ops => last_rank ops
  end.

(** Each setter changes its own right only, leaving the other rights,
    the rank, the target and the stored future as they are. *)
Theorem admin_setter_frame : forall (f g : ChatAdminRights.field) (v : bool) (b : t),
  ChatAdminRights.get f (setter g v b).(rights) =
    (if ChatAdminRights.field_eqb f g then v else ChatAdminRights.get f b.(rights)) /\
  (setter g v b).(rank) = b.(rank) /\ (setter g v b).(fut) = b.(fut) /\
  (setter g v b).(client) = b.(client) /\ (setter g v b).(channel) = b.(channel) /\
  (setter g v b).(user) = b.(user).
Proof.
  intros f g v b. destruct g, f; repeat split.
Qed.

Lemma admin_run_ops_spec : forall ops b,
  (forall f, ChatAdminRights.get f (run_ops ops b).(rights) =
             unwrap_or (last_right f ops) (ChatAdminRights.get f b.(rights))) /\
  (run_ops ops b).(rank) = unwrap_or (last_rank ops) b.(rank) /\
  (run_ops ops b).(fut) = b.(fut) /\ (run_ops ops b).(client) = b.(client) /\
  (run_ops ops b).(channel) = b.(channel) /\ (run_ops ops b).(user) = b.(user).
Proof.
  induction ops as [|o ops IH]; intros b; simpl; [repeat split|].
  destruct o as [g v|r]; simpl.
  - destruct (IH (setter g v b)) as (Hr & Hk & Hf & Hc & Hch & Hu).
    destruct (admin_setter_frame g g v b) as (_ & Hk' & Hf' & Hc' & Hch' & Hu').
    repeat split; try congruence.
    + intros f. rewrite Hr.
      destruct (admin_setter_frame f g v b) as (Hg & _).
      destruct (last_right f ops); simpl; [reflexivity | rewrite Hg; destruct (ChatAdminRights.field_eqb f g); reflexivity].
  - destruct (IH (set_rank r b)) as (Hr & Hk & Hf & Hc & Hch & Hu).
    repeat split; try exact Hf; try exact Hc; try exact Hch; try exact Hu.
    + intros f. rewrite Hr. reflexivity.
    + rewrite Hk. destruct (last_rank ops); reflexivity.
Qed.

(** A builder made by [new] and then configured by any chain of setter
    calls holds, for each right, the value of the last call that set it
    ([false] if none did) and the last rank set ([""] if none was); it
    still has no stored future. *)
Theorem admin_new_run_ops : forall c ch u ops,
  (forall f, ChatAdminRights.get f (run_ops ops (new c ch u)).(rights) =
             unwrap_or (last_right f ops) false) /\
  (run_ops ops (new c ch u)).(rank) = unwrap_or (last_rank ops) EmptyString /\
  (run_ops ops (new c ch u)).(fut) = None.
Proof.
  intros c ch u ops. destruct (admin_run_ops_spec ops (new c ch u)) as (Hr & Hk & Hf & _).
  repeat split; [|exact Hk|exact Hf].
  intros f. rewrite Hr. destruct f; reflexivity.
Qed.

(** The request is fixed by the first poll: it carries the rights and
    rank the builder had then, and setter calls made after it do not
    change what later polls invoke. *)
Theorem admin_poll_request_fixed : forall b ops,
  b.(fut) = None ->
  snd (poll b) =
    (b.(client), EditAdmin.mk b.(channel) b.(user) (ChatAdminRights.Rights b.(rights)) b.(rank)) /\
  snd (poll (run_ops ops (fst (poll b)))) = snd (poll b).
Proof.
  intros b ops Hb.
  destruct (admin_run_ops_spec ops (fst (poll b))) as (_ & _ & Hf & _).
  assert (fst (poll b) = mk b.(client) b.(channel) b.(user) b.(rights) b.(rank)
                           (Some (snd (poll b)))) as Hp
    by (unfold poll; rewrite Hb; reflexivity).
  assert (snd (poll b) = (b.(client), EditAdmin.mk b.(channel) b.(user)
                            (ChatAdminRights.Rights b.(rights)) b.(rank))) as Hs
    by (unfold poll; rewrite Hb; reflexivity).
  split; [exact Hs|].
  rewrite Hp in Hf. simpl in Hf. rewrite <- Hp in Hf.
  unfold poll at 1. rewrite Hf. reflexivity.
Qed.


End Builder.
End AdminRightsBuilder.

(** [u64 as i32]: keeps the low 32 bits, read as a two's complement
    [i32]. *)
Definition as_i32 (n : N) : Z :=
  let m := (Z.of_N n mod 2 ^ 32)%Z in
  if (m <? 2 ^ 31)%Z then m else (m - 2 ^ 32)%Z.

(** [i32 + i32]: an overflow panics ([None]), as in a debug build. *)
Definition add_i32 (a b : Z) : option Z :=
  let s := (a + b)%Z in
  if ((- 2 ^ 31 <=? s) && (s <? 2 ^ 31))%Z then Some s else None.

(** [pub struct BannedRightsBuilder]; the stored future [fut] is modelled
    by the client and the [EditBanned] request it invokes. *)
Module BannedRightsBuilder.
Section Builder.
Context {ClientHandle InputChannel InputUser InvocationError : Type}.

Record t : Type := mk {
  client : ClientHandle;
  channel : InputChannel;
  user : InputUser;
  rights : ChatBannedRights.t;
  fut : option (ClientHandle * EditBanned.t InputChannel InputUser)
}.

(** [BannedRightsBuilder::new]: nothing taken away, [until_date = 0]
    (permanent), no future. *)
Definition new (client : ClientHandle) (channel : InputChannel) (user : InputUser) : t :=
  mk client channel user {| ChatBannedRights.view_messages := false; ChatBannedRights.send_messages := false; ChatBannedRights.send_media := false; ChatBannedRights.send_stickers := false; ChatBannedRights.send_gifs := false; ChatBannedRights.send_games := false; ChatBannedRights.send_inline := false; ChatBannedRights.embed_links := false; ChatBannedRights.send_polls := false; ChatBannedRights.change_info := false; ChatBannedRights.invite_users := false; ChatBannedRights.pin_messages := false; ChatBannedRights.until_date := 0 |} None.

(** The builder with its [rights] replaced. *)
Definition with_rights (b : t) (r : ChatBannedRights.t) : t :=
  mk b.(client) b.(channel) b.(user) r b.(fut).

(** [pub fn view_messages(&mut self, val: bool)]: [self.rights.view_messages = !val]. *)
Definition view_messages (val : bool) (b : t) : t :=
  with_rights b (ChatBannedRights.set_view_messages b.(rights) (negb val)).

(** [pub fn send_messages(&mut self, val: bool)]: [self.rights.send_messages = !val]. *)
Definition send_messages (val : bool) (b : t) : t :=
  with_rights b (ChatBannedRights.set_send_messages b.(rights) (negb val)).

(** [pub fn send_media(&mut self, val: bool)]: [self.rights.send_media = !val]. *)
Definition send_media (val : bool) (b : t) : t :=
  with_rights b (ChatBannedRights.set_send_media b.(rights) (negb val)).

(** [pub fn send_stickers(&mut self, val: bool)]: [self.rights.send_stickers = !val]. *)
Definition send_stickers (val : bool) (b : t) : t :=
  with_rights b (ChatBannedRights.set_send_stickers b.(rights) (negb val)).

(** [pub fn send_gifs(&mut self, val: bool)]: [self.rights.send_gifs = !val]. *)
Definition send_gifs (val : bool) (b : t) : t :=
  with_rights b (ChatBannedRights.set_send_gifs b.(rights) (negb val)).

(** [pub fn send_games(&mut self, val: bool)]: [self.rights.send_games = !val]. *)
Definition send_games (val : bool) (b : t) : t :=
  with_rights b (ChatBannedRights.set_send_games b.(rights) (negb val)).

(** [pub fn send_inline(&mut self, val: bool)]: [self.rights.send_inline = !val]. *)
Definition send_inline (val : bool) (b : t) : t :=
  with_rights b (ChatBannedRights.set_send_inline b.(rights) (negb val)).

(** [pub fn embed_link_previews(&mut self, val: bool)]: [self.rights.embed_links = !val]. *)
Definition embed_link_previews (val : bool) (b : t) : t :=
  with_rights b (ChatBannedRights.set_embed_links b.(rights) (negb val)).

(** [pub fn send_polls(&mut self, val: bool)]: [self.rights.send_polls = !val]. *)
Definition send_polls (val : bool) (b : t) : t :=
  with_rights b (ChatBannedRights.set_send_polls b.(rights) (negb val)).

(** [pub fn change_info(&mut self, val: bool)]: [self.rights.change_info = !val]. *)
Definition change_info (val : bool) (b : t) : t :=
  with_rights b (ChatBannedRights.set_change_info b.(rights) (negb val)).

(** [pub fn invite_users(&mut self, val: bool)]: [self.rights.invite_users = !val]. *)
Definition invite_users (val : bool) (b : t) : t :=
  with_rights b (ChatBannedRights.set_invite_users b.(rights) (negb val)).

(** [pub fn pin_messages(&mut self, val: bool)]: [self.rights.pin_messages = !val]. *)
Definition pin_messages (val : bool) (b : t) : t :=
  with_rights b (ChatBannedRights.set_pin_messages b.(rights) (negb val)).

(** [pub fn until(&mut self, val: i32)]: [self.rights.until_date = val]. *)
Definition until (val : Z) (b : t) : t :=
  with_rights b (ChatBannedRights.set_until_date b.(rights) val).

(** [pub fn duration(&mut self, val: Duration)]: [now] is
    [SystemTime::now().duration_since(UNIX_EPOCH)] in whole seconds,
    [None] when the clock is before the epoch (the [expect] panics);
    [val] is [val.as_secs()].  Both are cast [as i32] and added; [None]
    is a panic. *)
Definition duration (now : option N) (val : N) (b : t) : option t :=
  match now with
  | None => None
  | Some secs =>
      match add_i32 (as_i32 secs) (as_i32 val) with
      | None => None
      | Some d => Some (with_rights b (ChatBannedRights.set_until_date b.(rights) d))
      end
  end.

(** The setter method of each flag. *)
Definition setter (f : ChatBannedRights.field) : bool -> t -> t :=
  match f with
  | ChatBannedRights.ViewMessages => view_messages
  | ChatBannedRights.SendMessages => send_messages
  | ChatBannedRights.SendMedia => send_media
  | ChatBannedRights.SendStickers => send_stickers
  | ChatBannedRights.SendGifs => send_gifs
  | ChatBannedRights.SendGames => send_games
  | ChatBannedRights.SendInline => send_inline
  | ChatBannedRights.EmbedLinks => embed_link_previews
  | ChatBannedRights.SendPolls => send_polls
  | ChatBannedRights.ChangeInfo => change_info
  | ChatBannedRights.InviteUsers => invite_users
  | ChatBannedRights.PinMessages => pin_messages
  end.

(** [impl Future for BannedRightsBuilder { fn poll }], as for the admin
    builder: the request is built on the first poll and stored. *)
Definition poll (b : t) : t * (ClientHandle * EditBanned.t InputChannel InputUser) :=
  match b.(fut) with
  | Some call => (b, call)
  | None =>
      let call := EditBanned.mk b.(channel) b.(user) (ChatBannedRights.Rights b.(rights)) in
      let f := (b.(client), call) in
      (mk b.(client) b.(channel) b.(user) b.(rights) (Some f), f)
  end.

(** [pub async fn load_current]: an error is returned before the builder
    is touched; a banned participant's rights replace the builder's; any
    other participant leaves the builder as it is. *)
Definition load_current (response : Result ChannelParticipant InvocationError) (b : t)
    : t * Result unit InvocationError :=
  match response with
  | Err e => (b, Err e)
  | Ok participant =>
      let b' := match participant with
                | Banned r => with_rights b (ChatBannedRights.into r)
                | _ => b
                end in
      (b', Ok tt)
  end.

(** A call of one of the builder's infallible setter methods. *)
Inductive op : Type :=
| SetRight (f : ChatBannedRights.field) (val : bool)
| Until (val : Z).

Definition run_op (o : op) (b : t) : t :=
  match o with
  | SetRight f v => setter f v b
  | Until d => until d b
  end.

(** A chain of setter calls, left to right. *)
Fixpoint run_ops (ops : list op) (b : t) : t :=
  match ops with
  | [] => b
  | o :: ops => run_ops ops (run_op o b)
  end.

(** The value passed by the last call in [ops] that set flag [f]. *)
Fixpoint last_right (f : ChatBannedRights.field) (ops : list op) : option bool :=
  match ops with
  | [] => None
  | SetRight g v :: ops =>
      match last_right f ops with
      | Some v' => Some v'
      | None => if ChatBannedRights.field_eqb f g then Some v else None
      end
  | Until _ :: ops => last_right f ops
  end.

(** The value passed by the last [until] call in [ops]. *)
Fixpoint last_until (ops : list op) : option Z :=
  match ops with
  | [] => None
  | Until d :: ops =>
      match last_until ops with Some d' => Some d' | None => Some d end
  | SetRight _ _ :: ops => last_until ops
  end.

(** Each setter stores the negation of its argument in its own flag
    only ([true] takes the permission away), leaving the other flags,
    [until_date], the target and the stored future as they are. *)
Theorem banned_setter_frame : forall (f g : ChatBannedRights.field) (v : bool) (b : t),
  ChatBannedRights.get f (setter g v b).(rights) =
    (if ChatBannedRights.field_eqb f g then negb v else ChatBannedRights.get f b.(rights)) /\
  (setter g v b).(rights).(ChatBannedRights.until_date) = b.(rights).(ChatBannedRights.until_date) /\
  (setter g v b).(fut) = b.(fut) /\
  (setter g v b).(client) = b.(client) /\ (setter g v b).(channel) = b.(channel) /\
  (setter g v b).(user) = b.(user).
Proof.
  intros f g v b. destruct g, f; repeat split.
Qed.

Lemma banned_run_ops_spec : forall ops b,
  (forall f, ChatBannedRights.get f (run_ops ops b).(rights) =
             match last_right f ops with
             | Some v => negb v
             | None => ChatBannedRights.get f b.(rights)
             end) /\
  (run_ops ops b).(rights).(ChatBannedRights.until_date) =
    unwrap_or (last_until ops) b.(rights).(ChatBannedRights.until_date) /\
  (run_ops ops b).(fut) = b.(fut) /\ (run_ops ops b).(client) = b.(client) /\
  (run_ops ops b).(channel) = b.(channel) /\ (run_ops ops b).(user) = b.(user).
Proof.
  induction ops as [|o ops IH]; intros b; simpl; [repeat split|].
  destruct o as [g v|d]; simpl.
  - destruct (IH (setter g v b)) as (Hr & Hk & Hf & Hc & Hch & Hu).
    destruct (banned_setter_frame g g v b) as (_ & Hk' & Hf' & Hc' & Hch' & Hu').
    repeat split; try congruence.
    intros f. rewrite Hr.
    destruct (banned_setter_frame f g v b) as (Hg & _).
    destruct (last_right f ops); [reflexivity|].
    rewrite Hg. destruct (ChatBannedRights.field_eqb f g); reflexivity.
  - destruct (IH (until d b)) as (Hr & Hk & Hf & Hc & Hch & Hu).
    repeat split; try exact Hf; try exact Hc; try exact Hch; try exact Hu.
    + intros f. rewrite Hr. destruct (last_right f ops); [reflexivity|].
      destruct f; reflexivity.
    + rewrite Hk. destruct (last_until ops); reflexivity.
Qed.

(** A builder made by [new] and then configured by any chain of setter
    calls takes a permission away exactly when the last call for it
    passed [false] (nothing is taken away by default), and restricts
    until the last [until] value ([0], permanent, if none); it still has
    no stored future. *)
Theorem banned_new_run_ops : forall c ch u ops,
  (forall f, ChatBannedRights.get f (run_ops ops (new c ch u)).(rights) =
             match last_right f ops with Some v => negb v | None => false end) /\
  (run_ops ops (new c ch u)).(rights).(ChatBannedRights.until_date) =
    unwrap_or (last_until ops) 0%Z /\
  (run_ops ops (new c ch u)).(fut) = None.
Proof.
  intros c ch u ops. destruct (banned_run_ops_spec ops (new c ch u)) as (Hr & Hk & Hf & _).
  repeat split; [|exact Hk|exact Hf].
  intros f. rewrite Hr. destruct (last_right f ops); [reflexivity|]. destruct f; reflexivity.
Qed.

(** The request is fixed by the first poll: it carries the rights the
    builder had then, and setter calls made after it do not change what
    later polls invoke. *)
Theorem banned_poll_request_fixed : forall b ops,
  b.(fut) = None ->
  snd (poll b) =
    (b.(client), EditBanned.mk b.(channel) b.(user) (ChatBannedRights.Rights b.(rights))) /\
  snd (poll (run_ops ops (fst (poll b)))) = snd (poll b).
Proof.
  intros b ops Hb.
  destruct (banned_run_ops_spec ops (fst (poll b))) as (_ & _ & Hf & _).
  assert (fst (poll b) = mk b.(client) b.(channel) b.(user) b.(rights)
                           (Some (snd (poll b)))) as Hp
    by (unfold poll; rewrite Hb; reflexivity).
  assert (snd (poll b) = (b.(client), EditBanned.mk b.(channel) b.(user)
                            (ChatBannedRights.Rights b.(rights)))) as Hs
    by (unfold poll; rewrite Hb; reflexivity).
  split; [exact Hs|].
  rewrite Hp in Hf. simpl in Hf. rewrite <- Hp in Hf.
  unfold poll at 1. rewrite Hf. reflexivity.
Qed.


Lemma as_i32_small : forall n, (Z.of_N n < 2 ^ 31)%Z -> as_i32 n = Z.of_N n.
Proof.
  intros n H. unfold as_i32.
  rewrite Z.mod_small by lia.
  destruct (Z.ltb_spec (Z.of_N n) (2 ^ 31)); lia.
Qed.

(** [duration] restricts until [now + val] seconds since the epoch (the
    same as [until (now + val)]) when that sum fits in an [i32]; it
    panics when the clock is before the epoch. *)
Theorem duration_until : forall (now val : N) (b : t),
  (Z.of_N now + Z.of_N val < 2 ^ 31)%Z ->
  duration (Some now) val b = Some (until (Z.of_N now + Z.of_N val) b) /\
  duration None val b = None.
Proof.
  intros now val b H. split; [|reflexivity].
  unfold duration, add_i32.
  rewrite !as_i32_small by lia.
  replace ((- 2 ^ 31 <=? Z.of_N now + Z.of_N val) && (Z.of_N now + Z.of_N val <? 2 ^ 31))%Z
    with true.
  - reflexivity.
  - symmetry. apply andb_true_intro. split; [apply Z.leb_le | apply Z.ltb_lt]; lia.
Qed.

(** [val.as_secs() as i32] keeps only the low 32 bits: durations that
    agree modulo [2^32] seconds set the same [until_date] (or both
    panic), so a duration of [2^32] seconds adds nothing. *)
Theorem duration_truncates : forall now (val val' : N) (b : t),
  (Z.of_N val mod 2 ^ 32 = Z.of_N val' mod 2 ^ 32)%Z ->
  duration now val b = duration now val' b.
Proof.
  intros now val val' b H. unfold duration, as_i32. rewrite H. reflexivity.
Qed.

End Builder.
End BannedRightsBuilder.

(** * Chats of the client ([grammers-client], types/chat/mod.rs) *)

(** [tl::enums::Chat]; of each variant only the fields [Chat::from_chat]
    and [Chat::unpack] read or write are kept. *)
Module TlChat.
Inductive t : Set :=
| Empty (id : Z)
| Chat (id : Z)
| Forbidden (id : Z) (title : string)
| Channel (id : Z) (broadcast megagroup : bool)
| ChannelForbidden (id : Z) (broadcast megagroup : bool) (access_hash : Z)
    (title : string) (until_date : option Z).

Definition id (c : t) : Z :=
  match c with
  | Empty i | Chat i | Forbidden i _ | Channel i _ _
  | ChannelForbidden i _ _ _ _ _ => i
  end.
End TlChat.

(** [tl::enums::User]; [unpack] only builds its [Empty] variant. *)
Module TlUser.
Inductive t : Set :=
| Empty (id : Z)
| User (id : Z) (access_hash : option Z).
End TlUser.

(** [grammers_session::PackedType]. *)
Module PackedType.
Inductive t : Set := User | Bot | Chat | Megagroup | Broadcast | Gigagroup.
End PackedType.

(** [grammers_session::PackedChat]. *)
Record PackedChat : Set := mkPackedChat {
  ty : PackedType.t;
  packed_id : Z;
  packed_access_hash : option Z
}.

(** [pub enum Chat].  The wrapped [User], [Group] and [Channel] types and
    their [from_raw] constructors live in modules absent here; they are
    left abstract, so what is proved holds whatever they do. *)
Module Chat.
Section Chat.
Context {User_ Group_ Channel_ : Type}.
Context (User_from_raw : TlUser.t -> User_).
Context (Group_from_raw : TlChat.t -> Group_).
Context (Channel_from_raw : TlChat.t -> Channel_).
(** [user.0.access_hash = v] on the raw user a [User] wraps. *)
Context (User_set_access_hash : User_ -> option Z -> User_).

Inductive t : Type :=
| User (u : User_)
| Group (g : Group_)
| Channel (c : Channel_).

(** [Chat::from_chat]: small groups and non-broadcast channels
    (megagroups) are groups, broadcast channels are channels. *)
Definition from_chat (chat : TlChat.t) : t :=
  match chat with
  | TlChat.Empty _ | TlChat.Chat _ | TlChat.Forbidden _ _ => Group (Group_from_raw chat)
  | TlChat.Channel _ broadcast _ =>
      if broadcast then Channel (Channel_from_raw chat) else Group (Group_from_raw chat)
  | TlChat.ChannelForbidden _ broadcast _ _ _ _ =>
      if broadcast then Channel (Channel_from_raw chat) else Group (Group_from_raw chat)
  end.

(** [Chat::unpack]. *)
Definition unpack (packed : PackedChat) : t :=
  match packed.(ty) with
  | PackedType.User | PackedType.Bot =>
      User (User_set_access_hash (User_from_raw (TlUser.Empty packed.(packed_id)))
              packed.(packed_access_hash))
  | PackedType.Chat => Group (Group_from_raw (TlChat.Empty packed.(packed_id)))
  | PackedType.Megagroup =>
      Group (Group_from_raw
               (TlChat.ChannelForbidden packed.(packed_id) false true
                  (unwrap_or packed.(packed_access_hash) 0%Z) EmptyString None))
  | PackedType.Broadcast | PackedType.Gigagroup =>
      Channel (Channel_from_raw
                 (TlChat.ChannelForbidden packed.(packed_id) true false
                    (unwrap_or packed.(packed_access_hash) 0%Z) EmptyString None))
  end.

(** Which variant a [Chat] is. *)
Inductive kind : Set := KUser | KGroup | KChannel.

Definition kind_of (c : t) : kind :=
  match c with User _ => KUser | Group _ => KGroup | Channel _ => KChannel end.

(** [from_chat] never makes a user, makes a channel exactly from a raw
    channel (accessible or forbidden) with the [broadcast] flag, and
    wraps the raw chat it is given unchanged. *)
Theorem from_chat_kind : forall chat,
  (from_chat chat = Channel (Channel_from_raw chat) /\
   exists i mg, (chat = TlChat.Channel i true mg \/
                 exists ah ti ud, chat = TlChat.ChannelForbidden i true mg ah ti ud)) \/
  (from_chat chat = Group (Group_from_raw chat) /\
   forall i mg, chat <> TlChat.Channel i true mg /\
                forall ah ti ud, chat <> TlChat.ChannelForbidden i true mg ah ti ud).
Proof.
  intros [i|i|i ti|i [|] mg|i [|] mg ah ti ud]; simpl.
  - right. split; [reflexivity|]. intros; split; [|intros]; discriminate.
  - right. split; [reflexivity|]. intros; split; [|intros]; discriminate.
  - right. split; [reflexivity|]. intros; split; [|intros]; discriminate.
  - left. split; [reflexivity|]. exists i, mg. left. reflexivity.
  - right. split; [reflexivity|]. intros; split; [|intros]; congruence.
  - left. split; [reflexivity|]. exists i, mg. right. eauto.
  - right. split; [reflexivity|]. intros; split; [|intros]; congruence.
Qed.

(** [unpack] picks the variant from the packed type (users and bots are
    users, small groups and megagroups are groups, broadcast channels
    and gigagroups are channels), and for every non-user packed chat it
    agrees with [from_chat] on a raw chat carrying the packed id. *)
Theorem unpack_agrees_with_from_chat : forall packed,
  kind_of (unpack packed) =
    match packed.(ty) with
    | PackedType.User | PackedType.Bot => KUser
    | PackedType.Chat | PackedType.Megagroup => KGroup
    | PackedType.Broadcast | PackedType.Gigagroup => KChannel
    end /\
  (packed.(ty) <> PackedType.User -> packed.(ty) <> PackedType.Bot ->
   exists raw, TlChat.id raw = packed.(packed_id) /\ unpack packed = from_chat raw).
Proof.
  intros [[] i ah]; simpl; split; try reflexivity; intros H1 H2;
    try (exfalso; congruence).
  - exists (TlChat.Empty i). split; reflexivity.
  - exists (TlChat.ChannelForbidden i false true (unwrap_or ah 0%Z) EmptyString None).
    split; reflexivity.
  - exists (TlChat.ChannelForbidden i true false (unwrap_or ah 0%Z) EmptyString None).
    split; reflexivity.
  - exists (TlChat.ChannelForbidden i true false (unwrap_or ah 0%Z) EmptyString None).
    split; reflexivity.
Qed.

End Chat.
End Chat.

(** ** The client's builders and chats at concrete inputs *)

Lemma admin_poll_request_fixed_witness :
  (AdminRightsBuilder.new tt 1 2).(AdminRightsBuilder.fut) = None /\
  (snd (AdminRightsBuilder.poll (AdminRightsBuilder.new tt 1 2)) =
     (tt, EditAdmin.mk 1 2
            (ChatAdminRights.Rights (AdminRightsBuilder.new tt 1 2).(AdminRightsBuilder.rights))
            EmptyString) /\
   snd (AdminRightsBuilder.poll
          (AdminRightsBuilder.run_ops
             [AdminRightsBuilder.SetRight ChatAdminRights.BanUsers true;
              AdminRightsBuilder.SetRank "mod"]
             (fst (AdminRightsBuilder.poll (AdminRightsBuilder.new tt 1 2))))) =
   snd (AdminRightsBuilder.poll (AdminRightsBuilder.new tt 1 2))).
Proof.
  split; [reflexivity|].
  apply AdminRightsBuilder.admin_poll_request_fixed. reflexivity.
Defined.

Lemma banned_poll_request_fixed_witness :
  (BannedRightsBuilder.new tt 1 2).(BannedRightsBuilder.fut) = None /\
  (snd (BannedRightsBuilder.poll (BannedRightsBuilder.new tt 1 2)) =
     (tt, EditBanned.mk 1 2
            (ChatBannedRights.Rights (BannedRightsBuilder.new tt 1 2).(BannedRightsBuilder.rights))) /\
   snd (BannedRightsBuilder.poll
          (BannedRightsBuilder.run_ops
             [BannedRightsBuilder.SetRight ChatBannedRights.SendMessages false;
              BannedRightsBuilder.Until 86400%Z]
             (fst (BannedRightsBuilder.poll (BannedRightsBuilder.new tt 1 2))))) =
   snd (BannedRightsBuilder.poll (BannedRightsBuilder.new tt 1 2))).
Proof.
  split; [reflexivity|].
  apply BannedRightsBuilder.banned_poll_request_fixed. reflexivity.
Defined.

Lemma duration_until_witness :
  (Z.of_N 1700000000 + Z.of_N 3600 < 2 ^ 31)%Z /\
  (BannedRightsBuilder.duration (Some 1700000000%N) 3600%N (BannedRightsBuilder.new tt 1 2) =
     Some (BannedRightsBuilder.until 1700003600%Z (BannedRightsBuilder.new tt 1 2)) /\
   BannedRightsBuilder.duration None 3600%N (BannedRightsBuilder.new tt 1 2) = None).
Proof.
  split; [reflexivity|].
  apply (BannedRightsBuilder.duration_until 1700000000%N 3600%N). reflexivity.
Defined.

Lemma duration_truncates_witness :
  (Z.of_N 4294967301 mod 2 ^ 32 = Z.of_N 5 mod 2 ^ 32)%Z /\
  BannedRightsBuilder.duration (Some 100%N) 4294967301%N (BannedRightsBuilder.new tt 1 2) =
  BannedRightsBuilder.duration (Some 100%N) 5%N (BannedRightsBuilder.new tt 1 2).
Proof.
  split; [reflexivity|].
  apply BannedRightsBuilder.duration_truncates. reflexivity.
Defined.

Lemma unpack_agrees_with_from_chat_witness :
  (PackedType.Megagroup <> PackedType.User /\ PackedType.Megagroup <> PackedType.Bot) /\
  exists raw, TlChat.id raw = 42%Z /\
    Chat.unpack (fun u : TlUser.t => u) (fun c : TlChat.t => c) (fun c : TlChat.t => c)
      (fun u _ => u) (mkPackedChat PackedType.Megagroup 42 (Some 7%Z)) =
    Chat.from_chat (fun c : TlChat.t => c) (fun c : TlChat.t => c) raw.
Proof.
  split; [split; discriminate|].
  apply (proj2 (Chat.unpack_agrees_with_from_chat (fun u : TlUser.t => u)
                  (fun c : TlChat.t => c) (fun c : TlChat.t => c) (fun u _ => u)
                  (mkPackedChat PackedType.Megagroup 42 (Some 7%Z)))); discriminate.
Defined.
